(** * NextFLAP planner adapter (tyr-nextflap, [src/__init__.py])

    A shallow embedding of the adapter class [NextFLAPPlanner] and of the
    helper [_on_import_error], followed by the properties its specification
    states about it.

    The adapter performs no planning of its own.  Every method either
    answers from a constant, or resolves the external module [up_nextflap]
    and forwards to its class [NextFLAPImpl], or forwards to the instance of
    that class stored in the attribute [_nextflap_engine].  The embedding
    therefore has three parts:

    - Python exceptions and outcomes, and a state-and-exception monad;
    - the environment the adapter runs in (the planning framework it
      inherits from and the external implementation), as a type class whose
      operations act on an outside world and are logged call by call;
    - the adapter itself, method by method in the order of the source. *)

From stdpp Require Import base strings gmap.

Set Default Proof Using "Type".

(** ** Python exceptions *)

(** The exception classes, as far as the adapter tells them apart.
    [ModuleNotFoundError] is the subclass of [ImportError] that Python
    raises for a module that is not installed.  [ImportErrorSubclass] is any
    other class that derives from [ImportError], directly or not, such as
    [zipimport.ZipImportError] or a class of the external package's own.
    [OtherException] is a class that does not derive from [ImportError] and
    is not [RuntimeError]. *)
Inductive ExnClass :=
| ImportError
| ModuleNotFoundError
| ImportErrorSubclass (class_name : string)
| RuntimeError
| OtherException (class_name : string).

(** An exception object: its class, its text ([str(e)]) and the exception
    it was raised [from] ([__cause__]). *)
#[warnings="-register-all"]
Inductive Exn := mkExn {
  exn_class : ExnClass;
  exn_str : string;
  exn_cause : option Exn
}.

(** [isinstance(e, ImportError)], the test of [except ImportError]: true of
    [ImportError] and of every class that derives from it. *)
Definition is_ImportError (e : Exn) : bool :=
  match exn_class e with
  | ImportError | ModuleNotFoundError | ImportErrorSubclass _ => true
  | RuntimeError | OtherException _ => false
  end.

(** [cls(msg)]: a new exception with no cause. *)
Definition new_exn (cls : ExnClass) (msg : string) : Exn :=
  {| exn_class := cls; exn_str := msg; exn_cause := None |}.

(** [raise x from e] raises [x] with [x.__cause__ = e]. *)
Definition with_cause (x e : Exn) : Exn :=
  {| exn_class := exn_class x; exn_str := exn_str x; exn_cause := Some e |}.

(** ** Outcomes and the monad of Python code *)

Inductive Outcome (A : Type) :=
| Return (a : A)
| Raise (e : Exn).
Arguments Return {A} a.
Arguments Raise {A} e.

Definition returned {A} (r : Outcome A) : bool :=
  match r with Return _ => true | Raise _ => false end.

Definition raised {A} (r : Outcome A) : bool :=
  match r with Return _ => false | Raise _ => true end.

(** A computation over a state [S] that returns a value or raises; the state
    it reached is kept in both cases, as Python keeps every assignment made
    before a [raise]. *)
Definition M (S A : Type) : Type := S -> Outcome A * S.

Definition ret {S A} (a : A) : M S A := fun s => (Return a, s).

Definition raise {S A} (e : Exn) : M S A := fun s => (Raise e, s).

Definition raise_from {S A} (x e : Exn) : M S A := raise (with_cause x e).

Definition bind {S A B} (m : M S A) (k : A -> M S B) : M S B :=
  fun s =>
    match m s with
    | (Return a, s') => k a s'
    | (Raise e, s') => (Raise e, s')
    end.

(** [try: body except ImportError as e: handler(e)]. *)
Definition try_except_ImportError {S A} (body : M S A) (handler : Exn -> M S A)
  : M S A :=
  fun s =>
    match body s with
    | (Return a, s') => (Return a, s')
    | (Raise e, s') =>
        if is_ImportError e then handler e s' else (Raise e, s')
    end.

Declare Scope py_scope.
Delimit Scope py_scope with py.
Notation "x <- m ;; k" := (bind m (fun x => k))
  (at level 100, m at next level, right associativity) : py_scope.
Notation "m ;; k" := (bind m (fun _ => k))
  (at level 100, right associativity) : py_scope.
Notation "'try' body 'except_ImportError' e '=>' h" :=
  (try_except_ImportError body (fun e => h))
  (at level 100, e name, body at level 100, h at level 100) : py_scope.

(** ** String containment *)

Definition LF : string := String (Ascii.ascii_of_nat 10) EmptyString.

(** [needle in haystack]. *)
Definition contains (needle haystack : string) : Prop :=
  exists before after, haystack = before +:+ needle +:+ after.

(** ** Problem kinds *)

(** Modelled from the spec: the class [ProblemKind] of the planning
    framework ([unified_planning.model]), which this repository imports and
    does not define.  The spec's data model gives it as the set of features
    a problem uses, ordered by inclusion of the feature sets. *)
Record ProblemKind := mkProblemKind { features : gset string }.

(** [a <= b] on problem kinds. *)
Definition ProblemKind_le (a b : ProblemKind) : bool :=
  bool_decide (features a ⊆ features b).

Definition empty_kind : ProblemKind := mkProblemKind ∅.

(** ** The environment of the adapter *)

(** Everything the adapter receives from outside this repository.

    From the planning framework: the types of the values that pass through
    the adapter untouched, and the initialisers of the three base classes.
    Those set the flags their own classes declare: they are taken as
    functions on that part of the object ([BaseFields]), so they return
    normally and neither read nor assign [_nextflap_engine], an attribute
    that only this adapter names.

    From the external package [up_nextflap]: the outside world [World] that
    its code reads and changes (installed files, native engine processes),
    the import of the class [NextFLAPImpl], the constructor, the static
    methods and the instance methods of that class.  Each is a function of
    the world that returns or raises. *)
Class Environment := {
  Problem : Type;
  Plan : Type;
  PlanKind : Type;
  Callback : Type;
  Timeout : Type;
  OutputStream : Type;
  PlanGenerationResult : Type;
  ValidationResult : Type;
  Credits : Type;
  Kwargs : Type;
  (** the attributes owned by [Engine] and the two mixins *)
  BaseFields : Type;
  Engine___init__ : BaseFields -> BaseFields;
  OneshotPlannerMixin___init__ : BaseFields -> BaseFields;
  PlanValidatorMixin___init__ : BaseFields -> BaseFields;
  (** [os.path.dirname(__file__)] *)
  current_dir : string;
  World : Type;
  (** an instance of [NextFLAPImpl] *)
  Handle : Type;
  (** [from up_nextflap import NextFLAPImpl] *)
  import_NextFLAPImpl : World -> Outcome unit * World;
  (** the constructor call of [NextFLAPImpl] on the keyword arguments *)
  NextFLAPImpl_new : Kwargs -> World -> Outcome Handle * World;
  NextFLAPImpl_supported_kind : World -> Outcome ProblemKind * World;
  NextFLAPImpl_supports_plan : PlanKind -> World -> Outcome bool * World;
  NextFLAPImpl_get_credits : Kwargs -> World -> Outcome (option Credits) * World;
  (** [engine._solve(problem, callback, timeout, output_stream)] *)
  NextFLAPImpl__solve :
    Handle -> Problem -> option Callback -> option Timeout ->
    option OutputStream -> World -> Outcome PlanGenerationResult * World;
  (** [engine._validate(problem, plan)] *)
  NextFLAPImpl__validate :
    Handle -> Problem -> Plan -> World -> Outcome ValidationResult * World;
  (** [engine.destroy()] *)
  NextFLAPImpl_destroy : Handle -> World -> Outcome unit * World
}.

Section Adapter.

Context {env : Environment}.

(** A call that crosses the boundary of the adapter, with the arguments the
    external side received. *)
Inductive Event :=
| EvImport
| EvNew (kwargs : Kwargs)
| EvSupportedKind
| EvSupportsPlan (plan_kind : PlanKind)
| EvGetCredits (kwargs : Kwargs)
| EvSolve (engine : Handle) (problem : Problem) (callback : option Callback)
    (timeout : option Timeout) (output_stream : option OutputStream)
| EvValidate (engine : Handle) (problem : Problem) (plan : Plan)
| EvDestroy (engine : Handle).

(** What lies outside the adapter: the world, and the log of the calls made
    into the external package so far, oldest first. *)
Record Outside := mkOutside {
  world : World;
  calls : list Event
}.

(** The adapter object.  The attribute [_nextflap_engine] is [None] while
    the object has no such attribute ([hasattr] is false). *)
Record NextFLAPPlanner := mkPlanner {
  _nextflap_engine : option Handle;
  base_fields : BaseFields
}.

(** The state an instance method runs in: its [self] and the outside. *)
Record Machine := mkMachine {
  self : NextFLAPPlanner;
  outside : Outside
}.

(** One call into the external package: logged, then run on the world. *)
Definition extern {A} (ev : Event) (f : World -> Outcome A * World)
  : M Outside A :=
  fun o =>
    let (r, w) := f (world o) in
    (r, {| world := w; calls := calls o ++ [ev] |}).

(** Code that needs no instance, run from an instance method. *)
Definition static {A} (m : M Outside A) : M Machine A :=
  fun st =>
    let (r, o) := m (outside st) in
    (r, {| self := self st; outside := o |}).

(** A base-class initialiser applied to [self]. *)
Definition base_init (f : BaseFields -> BaseFields) : M Machine unit :=
  fun st =>
    (Return tt,
     {| self := {| _nextflap_engine := _nextflap_engine (self st);
                   base_fields := f (base_fields (self st)) |};
        outside := outside st |}).

(** [self._nextflap_engine = h] *)
Definition set__nextflap_engine (h : Handle) : M Machine unit :=
  fun st =>
    (Return tt,
     {| self := {| _nextflap_engine := Some h;
                   base_fields := base_fields (self st) |};
        outside := outside st |}).

(** [hasattr(self, "_nextflap_engine")], with the value when it is there. *)
Definition lookup__nextflap_engine : M Machine (option Handle) :=
  fun st => (Return (_nextflap_engine (self st)), st).

Local Open Scope py_scope.

(** ** The source, definition by definition *)

Definition install_command : string :=
  "bash " +:+ current_dir +:+ "/install.sh".

Definition dependency_note : string :=
  "Note: Building NextFLAP requires system dependencies (g++, libz3-dev).".

(** [_on_import_error], lines 10-19. *)
Definition _on_import_error (e : Exn) : Exn :=
  new_exn ImportError
    ("NextFLAP implementation not found. Error: " +:+ exn_str e +:+ LF +:+ LF
     +:+ "To install NextFLAP:" +:+ LF
     +:+ "   bash " +:+ current_dir +:+ "/install.sh" +:+ LF +:+ LF
     +:+ "Note: Building NextFLAP requires system dependencies (g++, libz3-dev).").

(** [NextFLAPPlanner.__init__], lines 30-40. *)
Definition __init__ (kwargs : Kwargs) : M Machine unit :=
  base_init Engine___init__ ;;
  base_init OneshotPlannerMixin___init__ ;;
  base_init PlanValidatorMixin___init__ ;;
  try (static (extern EvImport import_NextFLAPImpl) ;;
       h <- static (extern (EvNew kwargs) (NextFLAPImpl_new kwargs)) ;;
       set__nextflap_engine h)
  except_ImportError e => raise_from (_on_import_error e) e.

(** [NextFLAPPlanner.name], lines 42-44. *)
Definition name : M Machine string := ret "nextflap".

(** [NextFLAPPlanner.supported_kind], lines 46-54. *)
Definition supported_kind : M Outside ProblemKind :=
  try (extern EvImport import_NextFLAPImpl ;;
       extern EvSupportedKind NextFLAPImpl_supported_kind)
  except_ImportError e => raise_from (_on_import_error e) e.

(** [NextFLAPPlanner.supports], lines 56-59. *)
Definition supports (problem_kind : ProblemKind) : M Outside bool :=
  supported <- supported_kind ;;
  ret (ProblemKind_le problem_kind supported).

(** [NextFLAPPlanner.supports_plan], lines 61-69. *)
Definition supports_plan (plan_kind : PlanKind) : M Outside bool :=
  try (extern EvImport import_NextFLAPImpl ;;
       extern (EvSupportsPlan plan_kind) (NextFLAPImpl_supports_plan plan_kind))
  except_ImportError e => raise_from (_on_import_error e) e.

(** [NextFLAPPlanner.get_credits], lines 71-79. *)
Definition get_credits (kwargs : Kwargs) : M Outside (option Credits) :=
  try (extern EvImport import_NextFLAPImpl ;;
       extern (EvGetCredits kwargs) (NextFLAPImpl_get_credits kwargs))
  except_ImportError e => raise_from (_on_import_error e) e.

Definition not_initialized : Exn :=
  new_exn RuntimeError "NextFLAP engine not properly initialized".

(** [NextFLAPPlanner._solve], lines 81-96. *)
Definition _solve (problem : Problem) (callback : option Callback)
    (timeout : option Timeout) (output_stream : option OutputStream)
  : M Machine PlanGenerationResult :=
  engine <- lookup__nextflap_engine ;;
  match engine with
  | Some h =>
      static (extern (EvSolve h problem callback timeout output_stream)
                (NextFLAPImpl__solve h problem callback timeout output_stream))
  | None => raise not_initialized
  end.

(** [NextFLAPPlanner._validate], lines 98-104. *)
Definition _validate (problem : Problem) (plan : Plan)
  : M Machine ValidationResult :=
  engine <- lookup__nextflap_engine ;;
  match engine with
  | Some h =>
      static (extern (EvValidate h problem plan)
                (NextFLAPImpl__validate h problem plan))
  | None => raise not_initialized
  end.

(** [NextFLAPPlanner.destroy], lines 106-109. *)
Definition destroy : M Machine unit :=
  engine <- lookup__nextflap_engine ;;
  match engine with
  | Some h => static (extern (EvDestroy h) (NextFLAPImpl_destroy h))
  | None => ret tt
  end.

End Adapter.

(** ** Life of an adapter object *)

Section Lifecycle.

Context {env : Environment}.

(** The object that [__init__] receives: no attribute [_nextflap_engine]
    yet, and whatever the base classes start from. *)
Definition new_planner (base0 : BaseFields) : NextFLAPPlanner :=
  {| _nextflap_engine := None; base_fields := base0 |}.

(** [__init__] run on a new object, which is kept whether the constructor
    returned or raised. *)
Definition construct (kwargs : Kwargs) (base0 : BaseFields) (o : Outside)
  : Outcome unit * Machine :=
  __init__ kwargs {| self := new_planner base0; outside := o |}.

(** A use of the object: the constructor, or one of the methods. *)
Inductive MethodCall :=
| CallInit (kwargs : Kwargs)
| CallName
| CallSupportedKind
| CallSupports (problem_kind : ProblemKind)
| CallSupportsPlan (plan_kind : PlanKind)
| CallGetCredits (kwargs : Kwargs)
| CallSolve (problem : Problem) (callback : option Callback)
    (timeout : option Timeout) (output_stream : option OutputStream)
| CallValidate (problem : Problem) (plan : Plan)
| CallDestroy.

(** The state after one call, whatever it returned or raised. *)
Definition after (c : MethodCall) (st : Machine) : Machine :=
  match c with
  | CallInit kw => snd (__init__ kw st)
  | CallName => snd (name st)
  | CallSupportedKind => snd (static supported_kind st)
  | CallSupports k => snd (static (supports k) st)
  | CallSupportsPlan k => snd (static (supports_plan k) st)
  | CallGetCredits kw => snd (static (get_credits kw) st)
  | CallSolve p cb t os => snd (_solve p cb t os st)
  | CallValidate p pl => snd (_validate p pl st)
  | CallDestroy => snd (destroy st)
  end.

(** Whether the call is a run of the constructor that returned. *)
Definition init_returned (c : MethodCall) (st : Machine) : bool :=
  match c with
  | CallInit kw => returned (fst (__init__ kw st))
  | _ => false
  end.

(** The state after a sequence of calls, with the answer to: did a run of
    the constructor return, now or before ([constructed])? *)
Fixpoint history (cs : list MethodCall) (st : Machine) (constructed : bool)
  : Machine * bool :=
  match cs with
  | [] => (st, constructed)
  | c :: cs => history cs (after c st) (constructed || init_returned c st)
  end.

(** What forwarding to the engine [h] amounts to: the engine's own outcome,
    the world it left, and one more entry in the log. *)
Definition forwarded {A} (ev : Event) (f : World -> Outcome A * World)
    (st : Machine) : Outcome A * Machine :=
  (fst (f (world (outside st))),
   {| self := self st;
      outside := {| world := snd (f (world (outside st)));
                    calls := calls (outside st) ++ [ev] |} |}).

(** The error of a failed import, as the caller sees it. *)
Definition dependency_missing (e : Exn) : Exn :=
  with_cause (_on_import_error e) e.

(** What [except ImportError] lets through and what it rewrites. *)
Definition as_raised_by_adapter (e : Exn) : Exn :=
  if is_ImportError e then dependency_missing e else e.

Definition map_outcome {A B} (f : A -> B) (r : Outcome A) : Outcome B :=
  match r with
  | Return a => Return (f a)
  | Raise e => Raise e
  end.

(** What a caller can read off the error [x] raised for the failed import
    [e]: it is an [ImportError] caused by [e], and its text holds the text
    of [e], the command that installs the package, which is not empty, and
    the note on the system dependencies of the build. *)
Definition describes_missing_dependency (e x : Exn) : Prop :=
  exn_class x = ImportError
  /\ exn_cause x = Some e
  /\ contains (exn_str e) (exn_str x)
  /\ install_command <> ""
  /\ contains install_command (exn_str x)
  /\ contains dependency_note (exn_str x).

(** The exception [e] is raised while the constructor resolves the external
    implementation: by the import, or by the constructor of the engine. *)
Definition resolution_raises (kwargs : Kwargs) (w : World) (e : Exn) : Prop :=
  (exists w1, import_NextFLAPImpl w = (Raise e, w1))
  \/ (exists w1 w2, import_NextFLAPImpl w = (Return tt, w1)
                   /\ NextFLAPImpl_new kwargs w1 = (Raise e, w2)).

(** The sixth testable property of the specification, as it is written:
    once [destroy] was called on a constructed adapter, every later [_solve]
    raises. *)
Definition solve_fails_after_destroy : Prop :=
  forall (st : Machine) (h : Handle) (problem : Problem)
         (callback : option Callback) (timeout : option Timeout)
         (output_stream : option OutputStream),
    _nextflap_engine (self st) = Some h ->
    raised (fst (_solve problem callback timeout output_stream
                   (snd (destroy st)))) = true.

End Lifecycle.

(** ** A test double of the environment *)

(** A small, fully concrete environment on which the adapter can be run:
    the package is installed or not, the constructor of the engine succeeds
    or raises a chosen exception, and a destroyed engine either keeps
    answering or refuses, as the world says. *)
Module Double.

Record setup := mkSetup {
  installed : bool;
  constructor_raises : option Exn;
  refuses_when_destroyed : bool;
  destroyed : nat
}.

Definition not_installed : Exn :=
  new_exn ModuleNotFoundError "No module named 'up_nextflap'".

Definition engine_destroyed : Exn :=
  new_exn (OtherException "EngineDestroyed") "engine was destroyed".

Definition import_ (w : setup) : Outcome unit * setup :=
  if installed w then (Return tt, w) else (Raise not_installed, w).

Definition new_ (kwargs : list (string * nat)) (w : setup)
  : Outcome nat * setup :=
  match constructor_raises w with
  | Some e => (Raise e, w)
  | None => (Return (length kwargs), w)
  end.

Definition kind : ProblemKind :=
  mkProblemKind {[ "ACTION_BASED"; "CONTINUOUS_TIME"; "NUMERIC_FLUENTS" ]}.

Definition solve_ (h problem : nat) (callback timeout output_stream : option nat)
    (w : setup) : Outcome nat * setup :=
  if refuses_when_destroyed w && negb (Nat.eqb (destroyed w) 0)
  then (Raise engine_destroyed, w)
  else (Return (problem + 1), w).

Definition validate_ (h problem plan : nat) (w : setup)
  : Outcome bool * setup :=
  if refuses_when_destroyed w && negb (Nat.eqb (destroyed w) 0)
  then (Raise engine_destroyed, w)
  else (Return (Nat.eqb plan (problem + 1)), w).

Definition destroy_ (h : nat) (w : setup) : Outcome unit * setup :=
  (Return tt,
   {| installed := installed w;
      constructor_raises := constructor_raises w;
      refuses_when_destroyed := refuses_when_destroyed w;
      destroyed := S (destroyed w) |}).

Definition env : Environment := {|
  Problem := nat;
  Plan := nat;
  PlanKind := string;
  Callback := nat;
  Timeout := nat;
  OutputStream := nat;
  PlanGenerationResult := nat;
  ValidationResult := bool;
  Credits := string;
  Kwargs := list (string * nat);
  BaseFields := list (string * bool);
  Engine___init__ := fun b => ("error_on_failed_checks", true) :: b;
  OneshotPlannerMixin___init__ := fun b => ("optimality_metric_required", false) :: b;
  PlanValidatorMixin___init__ := fun b => ("skip_checks", false) :: b;
  current_dir := "/opt/tyr/planners/nextflap";
  World := setup;
  Handle := nat;
  import_NextFLAPImpl := import_;
  NextFLAPImpl_new := new_;
  NextFLAPImpl_supported_kind := fun w => (Return kind, w);
  NextFLAPImpl_supports_plan := fun k w => (Return (String.eqb k "TIME_TRIGGERED_PLAN"), w);
  NextFLAPImpl_get_credits := fun _ w => (Return (Some "NextFLAP"), w);
  NextFLAPImpl__solve := solve_;
  NextFLAPImpl__validate := validate_;
  NextFLAPImpl_destroy := destroy_
|}.

#[local] Existing Instance env.

(** The package is installed and the engine keeps answering after
    [destroy]. *)
Definition lenient : setup :=
  {| installed := true; constructor_raises := None;
     refuses_when_destroyed := false; destroyed := 0 |}.

(** The package is installed and a destroyed engine raises. *)
Definition strict : setup :=
  {| installed := true; constructor_raises := None;
     refuses_when_destroyed := true; destroyed := 0 |}.

(** The package is not installed. *)
Definition absent : setup :=
  {| installed := false; constructor_raises := None;
     refuses_when_destroyed := false; destroyed := 0 |}.

(** The package is installed and the constructor of the engine raises. *)
Definition broken (e : Exn) : setup :=
  {| installed := true; constructor_raises := Some e;
     refuses_when_destroyed := false; destroyed := 0 |}.

Definition start (w : setup) : Outside := {| world := w; calls := [] |}.

(** An adapter constructed in the setup [w] with no options. *)
Definition constructed (w : setup) : Machine := snd (construct [] [] (start w)).

(** An object whose construction was never run. *)
Definition unconstructed (w : setup) : Machine :=
  {| self := new_planner []; outside := start w |}.

End Double.

(** ** Sessions on one adapter object *)

Section Sessions.

Context {env : Environment}.

(** The calls that use the object as it is and resolve nothing: the name
    and the three methods that look for the engine. *)
Definition is_execution (c : MethodCall) : bool :=
  match c with
  | CallName | CallSolve _ _ _ _ | CallValidate _ _ | CallDestroy => true
  | CallInit _ | CallSupportedKind | CallSupports _ | CallSupportsPlan _
  | CallGetCredits _ => false
  end.

(** The call into the engine [h] that one call on the adapter stands for:
    the same method with the same arguments, and nothing for the others. *)
Definition engine_events (h : Handle) (c : MethodCall) : list Event :=
  match c with
  | CallSolve p cb t os => [EvSolve h p cb t os]
  | CallValidate p pl => [EvValidate h p pl]
  | CallDestroy => [EvDestroy h]
  | CallInit _ | CallName | CallSupportedKind | CallSupports _
  | CallSupportsPlan _ | CallGetCredits _ => []
  end.

(** [self] after the three base-class initialisers, in the order of the
    source. *)
Definition base_initialised (b : BaseFields) : BaseFields :=
  PlanValidatorMixin___init__ (OneshotPlannerMixin___init__ (Engine___init__ b)).

End Sessions.

(** ** A second test double, with failures on demand *)

(** Here the import and the static methods of the class raise the exception
    the world prescribes, and every constructor call gives a new engine. *)
Module Faulty.

Record setup := mkSetup {
  import_raises : option Exn;
  class_raises : option Exn;
  built : nat
}.

Definition import_ (w : setup) : Outcome unit * setup :=
  match import_raises w with
  | Some e => (Raise e, w)
  | None => (Return tt, w)
  end.

Definition class_ {A} (a : A) (w : setup) : Outcome A * setup :=
  match class_raises w with
  | Some e => (Raise e, w)
  | None => (Return a, w)
  end.

Definition new_ (kwargs : list string) (w : setup) : Outcome nat * setup :=
  (Return (built w),
   {| import_raises := import_raises w;
      class_raises := class_raises w;
      built := S (built w) |}).

Definition env : Environment := {|
  Problem := nat;
  Plan := nat;
  PlanKind := string;
  Callback := nat;
  Timeout := nat;
  OutputStream := nat;
  PlanGenerationResult := nat;
  ValidationResult := bool;
  Credits := string;
  Kwargs := list string;
  BaseFields := nat;
  Engine___init__ := fun b => b + 1;
  OneshotPlannerMixin___init__ := fun b => 2 * b;
  PlanValidatorMixin___init__ := fun b => b + 3;
  current_dir := "/srv/nextflap";
  World := setup;
  Handle := nat;
  import_NextFLAPImpl := import_;
  NextFLAPImpl_new := new_;
  NextFLAPImpl_supported_kind := class_ (mkProblemKind {[ "CONTINUOUS_TIME" ]});
  NextFLAPImpl_supports_plan := fun k => class_ (String.eqb k "TIME_TRIGGERED_PLAN");
  NextFLAPImpl_get_credits := fun _ => class_ None;
  NextFLAPImpl__solve := fun h p _ _ _ w => (Return (h + p), w);
  NextFLAPImpl__validate :=
    fun h p pl w =>
      if Nat.eqb pl 0
      then (Raise (new_exn (OtherException "ValueError") "empty plan"), w)
      else (Return (Nat.eqb p pl), w);
  NextFLAPImpl_destroy := fun _ w => (Return tt, w)
|}.

#[local] Existing Instance env.

Definition sound : setup :=
  {| import_raises := None; class_raises := None; built := 5 |}.

Definition syntax_error : Exn :=
  new_exn (OtherException "SyntaxError") "invalid syntax (up_nextflap/__init__.py)".

Definition missing_binding : Exn :=
  new_exn ImportError "libz3.so.4: cannot open shared object file".

Definition zip_import_error : Exn :=
  new_exn (ImportErrorSubclass "zipimport.ZipImportError")
    "can't decompress data; zlib not available".

Definition value_error : Exn :=
  new_exn (OtherException "ValueError") "unknown plan kind".

(** The import itself raises [e]. *)
Definition unimportable (e : Exn) : setup :=
  {| import_raises := Some e; class_raises := None; built := 5 |}.

(** The import returns and the static methods of the class raise [e]. *)
Definition class_fails (e : Exn) : setup :=
  {| import_raises := None; class_raises := Some e; built := 5 |}.

Definition start (w : setup) : Outside := {| world := w; calls := [] |}.

End Faulty.

(** ** Properties of the adapter *)

Lemma append_assoc (a b c : string) : (a +:+ b) +:+ c = a +:+ (b +:+ c).
Proof.
  induction a as [|ch a IH]; [reflexivity|].
  change (String ch ((a +:+ b) +:+ c) = String ch (a +:+ (b +:+ c))).
  by rewrite IH.
Qed.

Section Properties.

Context {env : Environment}.

Implicit Types (st : Machine) (o : Outside) (e : Exn) (h : Handle).

(** *** Unfolding lemmas *)

Lemma static_extern {A} (ev : Event) (f : World -> Outcome A * World) st :
  static (extern ev f) st = forwarded ev f st.
Proof.
  unfold static, extern, forwarded.
  by destruct (f (world (outside st))).
Qed.

(** A static query: the import, then the forwarded call, with [ImportError]
    from either rewritten. *)
Lemma query_cases {A} (ev : Event) (f : World -> Outcome A * World) o :
  try_except_ImportError
    (bind (extern EvImport import_NextFLAPImpl) (fun _ => extern ev f))
    (fun e => raise_from (_on_import_error e) e) o
  = match import_NextFLAPImpl (world o) with
    | (Raise e, w1) =>
        (Raise (as_raised_by_adapter e),
         {| world := w1; calls := calls o ++ [EvImport] |})
    | (Return _, w1) =>
        (match fst (f w1) with
         | Return a => Return a
         | Raise e => Raise (as_raised_by_adapter e)
         end,
         {| world := snd (f w1); calls := (calls o ++ [EvImport]) ++ [ev] |})
    end.
Proof.
  unfold try_except_ImportError, bind, extern, raise_from, raise,
    as_raised_by_adapter, dependency_missing.
  destruct (import_NextFLAPImpl (world o)) as [[[]|e] w1]; simpl.
  - destruct (f w1) as [[a|e] w2]; simpl; [done|].
    by destruct (is_ImportError e).
  - by destruct (is_ImportError e).
Qed.

(** The constructor, case by case. *)
Lemma __init___cases (kwargs : Kwargs) st :
  __init__ kwargs st
  = let b := PlanValidatorMixin___init__
               (OneshotPlannerMixin___init__
                  (Engine___init__ (base_fields (self st)))) in
    let unset := {| _nextflap_engine := _nextflap_engine (self st);
                    base_fields := b |} in
    match import_NextFLAPImpl (world (outside st)) with
    | (Raise e, w1) =>
        (Raise (as_raised_by_adapter e),
         {| self := unset;
            outside := {| world := w1;
                          calls := calls (outside st) ++ [EvImport] |} |})
    | (Return _, w1) =>
        match NextFLAPImpl_new kwargs w1 with
        | (Raise e, w2) =>
            (Raise (as_raised_by_adapter e),
             {| self := unset;
                outside :=
                  {| world := w2;
                     calls := (calls (outside st) ++ [EvImport])
                              ++ [EvNew kwargs] |} |})
        | (Return h, w2) =>
            (Return tt,
             {| self := {| _nextflap_engine := Some h; base_fields := b |};
                outside :=
                  {| world := w2;
                     calls := (calls (outside st) ++ [EvImport])
                              ++ [EvNew kwargs] |} |})
        end
    end.
Proof.
  unfold __init__, try_except_ImportError, bind, base_init, static, extern,
    set__nextflap_engine, raise_from, raise, as_raised_by_adapter,
    dependency_missing.
  simpl.
  destruct (import_NextFLAPImpl (world (outside st))) as [[[]|e] w1]; simpl.
  - destruct (NextFLAPImpl_new kwargs w1) as [[h|e] w2]; simpl; [done|].
    by destruct (is_ImportError e).
  - by destruct (is_ImportError e).
Qed.

Lemma _solve_absent st (p : Problem) cb t os :
  _nextflap_engine (self st) = None ->
  _solve p cb t os st = (Raise not_initialized, st).
Proof. unfold _solve, bind, lookup__nextflap_engine. by intros ->. Qed.

Lemma _validate_absent st (p : Problem) (pl : Plan) :
  _nextflap_engine (self st) = None ->
  _validate p pl st = (Raise not_initialized, st).
Proof. unfold _validate, bind, lookup__nextflap_engine. by intros ->. Qed.

Lemma destroy_absent st :
  _nextflap_engine (self st) = None -> destroy st = (Return tt, st).
Proof. unfold destroy, bind, lookup__nextflap_engine. by intros ->. Qed.

Lemma _solve_present st h (p : Problem) cb t os :
  _nextflap_engine (self st) = Some h ->
  _solve p cb t os st
  = forwarded (EvSolve h p cb t os) (NextFLAPImpl__solve h p cb t os) st.
Proof.
  unfold _solve, bind, lookup__nextflap_engine. intros ->.
  apply static_extern.
Qed.

Lemma _validate_present st h (p : Problem) (pl : Plan) :
  _nextflap_engine (self st) = Some h ->
  _validate p pl st
  = forwarded (EvValidate h p pl) (NextFLAPImpl__validate h p pl) st.
Proof.
  unfold _validate, bind, lookup__nextflap_engine. intros ->.
  apply static_extern.
Qed.

Lemma destroy_present st h :
  _nextflap_engine (self st) = Some h ->
  destroy st = forwarded (EvDestroy h) (NextFLAPImpl_destroy h) st.
Proof.
  unfold destroy, bind, lookup__nextflap_engine. intros ->.
  apply static_extern.
Qed.

Lemma static_self {A} (m : M Outside A) st : self (snd (static m st)) = self st.
Proof. unfold static. by destruct (m (outside st)). Qed.

(** Only a run of the constructor that returns assigns the attribute, and
    nothing deletes it. *)
Lemma after_engine (c : MethodCall) st (b : bool) :
  (is_Some (_nextflap_engine (self st)) <-> b = true) ->
  (is_Some (_nextflap_engine (self (after c st)))
   <-> b || init_returned c st = true).
Proof.
  intros Hb.
  assert (Hsame : forall st', self st' = self st ->
            is_Some (_nextflap_engine (self st')) <-> b || false = true).
  { intros st' ->. by rewrite orb_false_r. }
  destruct c; simpl; try (apply Hsame; first [apply static_self | done]).
  - rewrite __init___cases. simpl.
    destruct (import_NextFLAPImpl (world (outside st))) as [[[]|e] w1]; simpl.
    + destruct (NextFLAPImpl_new kwargs w1) as [[h|e] w2]; simpl.
      * rewrite orb_true_r. split; [done|]. intros _. by exists h.
      * by rewrite orb_false_r.
    + by rewrite orb_false_r.
  - apply Hsame. destruct (_nextflap_engine (self st)) as [h|] eqn:E.
    + by rewrite (_solve_present _ h).
    + by rewrite _solve_absent.
  - apply Hsame. destruct (_nextflap_engine (self st)) as [h|] eqn:E.
    + by rewrite (_validate_present _ h).
    + by rewrite _validate_absent.
  - apply Hsame. destruct (_nextflap_engine (self st)) as [h|] eqn:E.
    + by rewrite (destroy_present _ h).
    + by rewrite destroy_absent.
Qed.

Lemma history_engine (cs : list MethodCall) st (b : bool) :
  (is_Some (_nextflap_engine (self st)) <-> b = true) ->
  (is_Some (_nextflap_engine (self (fst (history cs st b))))
   <-> snd (history cs st b) = true).
Proof.
  revert st b. induction cs as [|c cs IH]; intros st b Hb; [done|].
  simpl. apply IH. by apply after_engine.
Qed.

Lemma dependency_missing_described e :
  describes_missing_dependency e (dependency_missing e).
Proof.
  unfold describes_missing_dependency, dependency_missing, with_cause,
    _on_import_error, new_exn, install_command, dependency_note; simpl.
  split; [done|]. split; [done|]. split; [|split; [|split]].
  - by eexists _, _.
  - done.
  - exists ("NextFLAP implementation not found. Error: " +:+ exn_str e
            +:+ LF +:+ LF +:+ "To install NextFLAP:" +:+ LF +:+ "   "),
           (LF +:+ LF
            +:+ "Note: Building NextFLAP requires system dependencies (g++, libz3-dev).").
    rewrite !append_assoc. reflexivity.
  - exists ("NextFLAP implementation not found. Error: " +:+ exn_str e
            +:+ LF +:+ LF +:+ "To install NextFLAP:" +:+ LF
            +:+ "   bash " +:+ current_dir +:+ "/install.sh" +:+ LF +:+ LF),
           "".
    rewrite !append_assoc. reflexivity.
Qed.

(** *** Missing dependency *)

(** C1.  When the import of the external implementation raises an
    [ImportError] [e], the constructor and each static query ([supported_kind],
    [supports], [supports_plan], [get_credits]) raise one and the same
    error: an [ImportError] whose cause is [e] and whose text contains the
    text of [e], the non-empty install command and the note on the native
    system dependencies. *)
Theorem unresolved_dependency_is_reported e o (w1 : World) :
  import_NextFLAPImpl (world o) = (Raise e, w1) ->
  is_ImportError e = true ->
  describes_missing_dependency e (dependency_missing e)
  /\ (forall (kwargs : Kwargs) (s : NextFLAPPlanner),
        fst (__init__ kwargs {| self := s; outside := o |})
        = Raise (dependency_missing e))
  /\ fst (supported_kind o) = Raise (dependency_missing e)
  /\ (forall k, fst (supports k o) = Raise (dependency_missing e))
  /\ (forall k, fst (supports_plan k o) = Raise (dependency_missing e))
  /\ (forall kw, fst (get_credits kw o) = Raise (dependency_missing e)).
Proof.
  intros Himp He.
  assert (Hq : forall A ev (f : World -> Outcome A * World),
             fst (try_except_ImportError
                    (bind (extern EvImport import_NextFLAPImpl)
                          (fun _ => extern ev f))
                    (fun e => raise_from (_on_import_error e) e) o)
             = Raise (dependency_missing e)).
  { intros A ev f. rewrite query_cases, Himp. simpl.
    unfold as_raised_by_adapter. by rewrite He. }
  split; [apply dependency_missing_described|].
  split; [|split; [|split; [|split]]].
  - intros kwargs s. rewrite __init___cases. simpl. rewrite Himp. simpl.
    unfold as_raised_by_adapter. by rewrite He.
  - apply Hq.
  - intros k. unfold supports, bind.
    pose proof (Hq _ EvSupportedKind NextFLAPImpl_supported_kind) as H.
    fold supported_kind in H.
    destruct (supported_kind o) as [[sk|x] o']; simpl in *; congruence.
  - intros k. apply Hq.
  - intros kw. apply Hq.
Qed.

(** *** Capability *)

(** C2.  When [supported_kind] reports the kind [sk], [supports k] returns
    the comparison [k <= sk]: it returns true exactly when the features of
    [k] are among those of [sk], and for the empty feature set it returns
    true whatever [sk] is. *)
Theorem supports_iff_le_supported_kind (k sk : ProblemKind) o o' :
  supported_kind o = (Return sk, o') ->
  supports k o = (Return (ProblemKind_le k sk), o')
  /\ (fst (supports k o) = Return true <-> features k ⊆ features sk)
  /\ supports empty_kind o = (Return true, o').
Proof.
  intros H. unfold supports, bind, ret. rewrite H. simpl.
  split; [done|]. split.
  - unfold ProblemKind_le. split.
    + intros [= Hle]. by apply bool_decide_eq_true in Hle.
    + intros Hle. f_equal. by apply bool_decide_eq_true.
  - unfold ProblemKind_le, empty_kind. simpl. do 2 f_equal.
    apply bool_decide_eq_true. set_solver.
Qed.

(** *** Execution on an adapter without engine *)

(** C3.  On an adapter whose attribute [_nextflap_engine] is absent,
    [_solve] and [_validate] raise the [RuntimeError] "NextFLAP engine not
    properly initialized": they do not return, they raise no
    [AttributeError], and they leave the adapter and the outside as they
    were. *)
Theorem not_initialized_without_engine st (problem : Problem)
    (callback : option Callback) (timeout : option Timeout)
    (output_stream : option OutputStream) (plan : Plan) :
  _nextflap_engine (self st) = None ->
  _solve problem callback timeout output_stream st
  = (Raise (new_exn RuntimeError "NextFLAP engine not properly initialized"), st)
  /\ _validate problem plan st
     = (Raise (new_exn RuntimeError "NextFLAP engine not properly initialized"), st)
  /\ raised (fst (_solve problem callback timeout output_stream st)) = true
  /\ raised (fst (_validate problem plan st)) = true
  /\ (forall msg cause,
        fst (_solve problem callback timeout output_stream st)
        <> Raise (mkExn (OtherException "AttributeError") msg cause)
        /\ fst (_validate problem plan st)
           <> Raise (mkExn (OtherException "AttributeError") msg cause)).
Proof.
  intros H.
  rewrite (_solve_absent _ _ _ _ _ H), (_validate_absent _ _ _ H).
  by repeat split.
Qed.

(** *** Forwarding *)

(** C4.  On an adapter that holds the engine [h], [_solve] calls the
    engine's [_solve] once with the same four arguments in the same order,
    [_validate] calls the engine's [_validate] once with the same two
    arguments, and each gives back what the engine returned or raised, in
    the world the engine left. *)
Theorem forwards_arguments_and_result st h (problem : Problem)
    (callback : option Callback) (timeout : option Timeout)
    (output_stream : option OutputStream) (plan : Plan) :
  _nextflap_engine (self st) = Some h ->
  _solve problem callback timeout output_stream st
  = (fst (NextFLAPImpl__solve h problem callback timeout output_stream
            (world (outside st))),
     {| self := self st;
        outside :=
          {| world := snd (NextFLAPImpl__solve h problem callback timeout
                             output_stream (world (outside st)));
             calls := calls (outside st)
                      ++ [EvSolve h problem callback timeout output_stream] |} |})
  /\ _validate problem plan st
     = (fst (NextFLAPImpl__validate h problem plan (world (outside st))),
        {| self := self st;
           outside :=
             {| world := snd (NextFLAPImpl__validate h problem plan
                                (world (outside st)));
                calls := calls (outside st) ++ [EvValidate h problem plan] |} |}).
Proof.
  intros H.
  by rewrite (_solve_present _ h), (_validate_present _ h).
Qed.

(** *** The engine handle over the life of an adapter *)

(** C5.  Take a new object and make any sequence of calls on it, runs of
    the constructor among them.  In the state reached, the attribute
    [_nextflap_engine] is present exactly when a run of the constructor has
    returned.  When it is absent, [_solve] and [_validate] raise the
    not-initialized error and [destroy] returns, all three without a call to
    the engine; when it holds [h], the three forward to [h]. *)
Theorem engine_present_iff_constructed (base0 : BaseFields) o
    (cs : list MethodCall) :
  let reached := history cs {| self := new_planner base0; outside := o |} false in
  let st := fst reached in
  (is_Some (_nextflap_engine (self st)) <-> snd reached = true)
  /\ match _nextflap_engine (self st) with
     | None =>
         (forall p cb t os, _solve p cb t os st = (Raise not_initialized, st))
         /\ (forall p pl, _validate p pl st = (Raise not_initialized, st))
         /\ destroy st = (Return tt, st)
     | Some h =>
         (forall p cb t os,
            _solve p cb t os st
            = forwarded (EvSolve h p cb t os)
                (NextFLAPImpl__solve h p cb t os) st)
         /\ (forall p pl,
               _validate p pl st
               = forwarded (EvValidate h p pl)
                   (NextFLAPImpl__validate h p pl) st)
         /\ destroy st = forwarded (EvDestroy h) (NextFLAPImpl_destroy h) st
     end.
Proof.
  intros reached st. split.
  - apply history_engine. simpl. split; [by intros [? ?]|done].
  - destruct (_nextflap_engine (self st)) as [h|] eqn:E.
    + split; [|split].
      * intros. by apply _solve_present.
      * intros. by apply _validate_present.
      * by apply destroy_present.
    + split; [|split].
      * intros. by apply _solve_absent.
      * intros. by apply _validate_absent.
      * by apply destroy_absent.
Qed.

(** *** Destruction *)

(** C6, as amended.  On an adapter that holds the engine [h], [destroy]
    gives back what the engine's [destroy] returned or raised and leaves the
    adapter object as it was; a later [_solve] gives back what the engine's
    [_solve] returns or raises in the world left by [destroy], so it fails
    exactly when the engine fails, and then with the engine's error. *)
Theorem solve_after_destroy_answers_as_engine st h (problem : Problem)
    (callback : option Callback) (timeout : option Timeout)
    (output_stream : option OutputStream) :
  _nextflap_engine (self st) = Some h ->
  let st1 := snd (destroy st) in
  let answer := NextFLAPImpl__solve h problem callback timeout output_stream
                  (world (outside st1)) in
  fst (destroy st) = fst (NextFLAPImpl_destroy h (world (outside st)))
  /\ world (outside st1) = snd (NextFLAPImpl_destroy h (world (outside st)))
  /\ self st1 = self st
  /\ fst (_solve problem callback timeout output_stream st1) = fst answer
  /\ (raised (fst (_solve problem callback timeout output_stream st1)) = true
      <-> raised (fst answer) = true)
  /\ (forall x, fst (_solve problem callback timeout output_stream st1) = Raise x
               <-> fst answer = Raise x).
Proof.
  intros H st1 answer. subst answer st1.
  rewrite (destroy_present _ h H). simpl.
  rewrite (_solve_present _ h) by done. simpl.
  by repeat split.
Qed.

(** C7.  On an adapter whose attribute [_nextflap_engine] is absent,
    [destroy] returns [None] and leaves everything as it was: the adapter
    object, the world, and the log of external calls, to which nothing is
    added. *)
Theorem destroy_without_engine_is_noop st :
  _nextflap_engine (self st) = None ->
  destroy st = (Return tt, st)
  /\ self (snd (destroy st)) = self st
  /\ world (outside (snd (destroy st))) = world (outside st)
  /\ calls (outside (snd (destroy st))) = calls (outside st).
Proof. intros H. by rewrite (destroy_absent _ H). Qed.

(** C8.  On an adapter that holds the engine [h], [destroy] runs the
    engine's [destroy] and leaves the attribute [_nextflap_engine] in
    place.  A second [destroy] therefore runs the engine's [destroy] on [h]
    a second time, in the world the first one left, and a [_solve] or
    [_validate] after [destroy] is forwarded to the engine [h] like any
    other. *)
Theorem destroy_keeps_engine st h (problem : Problem)
    (callback : option Callback) (timeout : option Timeout)
    (output_stream : option OutputStream) (plan : Plan) :
  _nextflap_engine (self st) = Some h ->
  let st1 := snd (destroy st) in
  _nextflap_engine (self st1) = Some h
  /\ destroy st = forwarded (EvDestroy h) (NextFLAPImpl_destroy h) st
  /\ destroy st1 = forwarded (EvDestroy h) (NextFLAPImpl_destroy h) st1
  /\ world (outside (snd (destroy st1)))
     = snd (NextFLAPImpl_destroy h
              (snd (NextFLAPImpl_destroy h (world (outside st)))))
  /\ calls (outside (snd (destroy st1)))
     = calls (outside st) ++ [EvDestroy h; EvDestroy h]
  /\ _solve problem callback timeout output_stream st1
     = forwarded (EvSolve h problem callback timeout output_stream)
         (NextFLAPImpl__solve h problem callback timeout output_stream) st1
  /\ calls (outside (snd (_solve problem callback timeout output_stream st1)))
     = calls (outside st)
       ++ [EvDestroy h; EvSolve h problem callback timeout output_stream]
  /\ _validate problem plan st1
     = forwarded (EvValidate h problem plan)
         (NextFLAPImpl__validate h problem plan) st1
  /\ calls (outside (snd (_validate problem plan st1)))
     = calls (outside st) ++ [EvDestroy h; EvValidate h problem plan].
Proof.
  intros H st1.
  assert (H1 : _nextflap_engine (self st1) = Some h).
  { subst st1. by rewrite (destroy_present _ h H). }
  rewrite (destroy_present _ h H1), (_solve_present _ h _ _ _ _ H1),
    (_validate_present _ h _ _ H1).
  subst st1. rewrite (destroy_present _ h H). simpl.
  rewrite <- !app_assoc. simpl.
  by repeat split.
Qed.

(** *** Construction *)

(** C9.  Let the exception [e] be raised while the constructor imports or
    instantiates the external implementation.  If [e] is an instance of
    [ImportError] (of that class or of any class derived from it) the
    constructor raises the installation error made from [e]: an
    [ImportError] caused by [e] whose text holds the text of [e], the
    install command and the note on the system dependencies.  Otherwise the
    constructor raises [e] itself.  In both cases the attribute
    [_nextflap_engine] of the new object stays absent. *)
Theorem constructor_translates_only_ImportError (kwargs : Kwargs)
    (base0 : BaseFields) o e :
  resolution_raises kwargs (world o) e ->
  let r := construct kwargs base0 o in
  (is_ImportError e = true ->
   fst r = Raise (with_cause (_on_import_error e) e)
   /\ describes_missing_dependency e (with_cause (_on_import_error e) e))
  /\ (is_ImportError e = false -> fst r = Raise e)
  /\ _nextflap_engine (self (snd r)) = None.
Proof.
  intros Hres r. subst r. unfold construct. rewrite __init___cases. simpl.
  unfold as_raised_by_adapter.
  pose proof (dependency_missing_described e) as Hd.
  unfold dependency_missing in *.
  destruct Hres as [[w1 Hi]|(w1 & w2 & Hi & Hn)].
  - rewrite Hi. simpl. split; [|split; [|done]].
    + intros ->. by split.
    + by intros ->.
  - rewrite Hi, Hn. simpl. split; [|split; [|done]].
    + intros ->. by split.
    + by intros ->.
Qed.

(** *** Name *)

(** C10.  The property [name] returns the string "nextflap" in every state
    of every adapter object, and in particular on an object whose
    constructor raised; it calls nothing outside and changes nothing. *)
Theorem name_is_nextflap st :
  name st = (Return "nextflap", st)
  /\ forall (kwargs : Kwargs) (base0 : BaseFields) o,
       name (snd (construct kwargs base0 o))
       = (Return "nextflap", snd (construct kwargs base0 o)).
Proof. by split. Qed.

End Properties.

(** ** Running the adapter on the double *)

Section OnTheDouble.

#[local] Existing Instance Double.env.

Example construct_installed :
  construct [("depth", 3)] [] (Double.start Double.lenient)
  = (Return tt,
     {| self := {| _nextflap_engine := Some 1;
                   base_fields := [("skip_checks", false);
                                   ("optimality_metric_required", false);
                                   ("error_on_failed_checks", true)] |};
        outside := {| world := Double.lenient;
                      calls := [EvImport; EvNew [("depth", 3)]] |} |}).
Proof. reflexivity. Qed.

Example construct_absent_handle :
  _nextflap_engine (self (Double.constructed Double.absent)) = None
  /\ calls (outside (Double.constructed Double.absent)) = [EvImport].
Proof. split; reflexivity. Qed.

Example construct_absent_message :
  map_outcome (fun _ => tt) (fst (construct [] [] (Double.start Double.absent)))
  = Raise
      {| exn_class := ImportError;
         exn_str :=
           "NextFLAP implementation not found. Error: No module named 'up_nextflap'"
           +:+ LF +:+ LF +:+ "To install NextFLAP:" +:+ LF
           +:+ "   bash /opt/tyr/planners/nextflap/install.sh" +:+ LF +:+ LF
           +:+ "Note: Building NextFLAP requires system dependencies (g++, libz3-dev).";
         exn_cause := Some Double.not_installed |}.
Proof. reflexivity. Qed.

Example solve_on_constructed :
  _solve 41 None (Some 30) None (Double.constructed Double.lenient)
  = (Return 42,
     {| self := self (Double.constructed Double.lenient);
        outside := {| world := Double.lenient;
                      calls := [EvImport; EvNew []; EvSolve 0 41 None (Some 30) None] |} |}).
Proof. reflexivity. Qed.

Example solve_on_unconstructed :
  fst (_solve 41 None None None (Double.unconstructed Double.lenient))
  = Raise (new_exn RuntimeError "NextFLAP engine not properly initialized").
Proof. reflexivity. Qed.

Example supports_on_double :
  fst (supports (mkProblemKind {[ "NUMERIC_FLUENTS" ]}) (Double.start Double.lenient))
  = Return true
  /\ fst (supports (mkProblemKind {[ "NUMERIC_FLUENTS"; "HIERARCHICAL" ]})
            (Double.start Double.lenient))
     = Return false.
Proof. split; vm_compute; reflexivity. Qed.

Example destroy_twice_calls_engine_twice :
  calls (outside (snd (destroy (snd (destroy (Double.constructed Double.lenient))))))
  = [EvImport; EvNew []; EvDestroy 0; EvDestroy 0].
Proof. reflexivity. Qed.

Example constructor_value_error :
  fst (construct [] []
         (Double.start (Double.broken (new_exn (OtherException "ValueError") "bad option"))))
  = Raise (new_exn (OtherException "ValueError") "bad option").
Proof. reflexivity. Qed.

Example history_on_double :
  let reached :=
    history [CallDestroy; CallSolve 1 None None None; CallInit [];
             CallDestroy; CallSolve 41 None None None]
      (Double.unconstructed Double.lenient) false in
  _nextflap_engine (self (fst reached)) = Some 0
  /\ snd reached = true
  /\ calls (outside (fst reached))
     = [EvImport; EvNew []; EvDestroy 0; EvSolve 0 41 None None None].
Proof. repeat split; reflexivity. Qed.

Example history_on_double_absent :
  let reached :=
    history [CallInit []; CallSolve 41 None None None; CallDestroy]
      (Double.unconstructed Double.absent) false in
  _nextflap_engine (self (fst reached)) = None
  /\ snd reached = false
  /\ calls (outside (fst reached)) = [EvImport].
Proof. repeat split; reflexivity. Qed.

(** *** The general statements at concrete inputs *)

Lemma unresolved_dependency_is_reported_on_double :
  import_NextFLAPImpl (world (Double.start Double.absent))
  = (Raise Double.not_installed, Double.absent)
  /\ is_ImportError Double.not_installed = true
  /\ describes_missing_dependency Double.not_installed
       (dependency_missing Double.not_installed)
  /\ fst (supported_kind (Double.start Double.absent))
     = Raise (dependency_missing Double.not_installed)
  /\ fst (get_credits [] (Double.start Double.absent))
     = Raise (dependency_missing Double.not_installed).
Proof.
  split; [reflexivity|]. split; [reflexivity|].
  destruct (unresolved_dependency_is_reported (env := Double.env) Double.not_installed
              (Double.start Double.absent) Double.absent eq_refl eq_refl)
    as (Hd & _ & Hk & _ & _ & Hc).
  split; [exact Hd|]. split; [exact Hk|]. exact (Hc []).
Defined.

Lemma supports_iff_le_supported_kind_on_double :
  supported_kind (Double.start Double.lenient)
  = (Return Double.kind,
     {| world := Double.lenient; calls := [EvImport; EvSupportedKind] |})
  /\ supports (mkProblemKind {[ "NUMERIC_FLUENTS" ]}) (Double.start Double.lenient)
     = (Return (ProblemKind_le (mkProblemKind {[ "NUMERIC_FLUENTS" ]}) Double.kind),
        {| world := Double.lenient; calls := [EvImport; EvSupportedKind] |})
  /\ supports empty_kind (Double.start Double.lenient)
     = (Return true,
        {| world := Double.lenient; calls := [EvImport; EvSupportedKind] |}).
Proof.
  split; [reflexivity|].
  destruct (supports_iff_le_supported_kind (env := Double.env)
              (mkProblemKind {[ "NUMERIC_FLUENTS" ]}) Double.kind
              (Double.start Double.lenient)
              (mkOutside (env := Double.env) Double.lenient [EvImport; EvSupportedKind])
              eq_refl)
    as (Hs & _ & He).
  split; [exact Hs|exact He].
Defined.

Lemma not_initialized_without_engine_on_double :
  _nextflap_engine (self (Double.constructed Double.absent)) = None
  /\ fst (_solve 41 None None None (Double.constructed Double.absent))
     = Raise (new_exn RuntimeError "NextFLAP engine not properly initialized")
  /\ fst (_validate 41 42 (Double.constructed Double.absent))
     = Raise (new_exn RuntimeError "NextFLAP engine not properly initialized").
Proof.
  split; [reflexivity|].
  destruct (not_initialized_without_engine (env := Double.env) (Double.constructed Double.absent)
              41 None None None 42 eq_refl)
    as (Hs & Hv & _).
  split; [exact (f_equal fst Hs)|exact (f_equal fst Hv)].
Defined.

Lemma forwards_arguments_and_result_on_double :
  _nextflap_engine (self (Double.constructed Double.lenient)) = Some 0
  /\ fst (_solve 41 (Some 7) (Some 30) (Some 2) (Double.constructed Double.lenient))
     = fst (Double.solve_ 0 41 (Some 7) (Some 30) (Some 2) Double.lenient)
  /\ fst (_validate 41 42 (Double.constructed Double.lenient))
     = fst (Double.validate_ 0 41 42 Double.lenient).
Proof.
  split; [reflexivity|].
  destruct (forwards_arguments_and_result (env := Double.env) (Double.constructed Double.lenient) 0
              41 (Some 7) (Some 30) (Some 2) 42 eq_refl)
    as (Hs & Hv).
  split; [exact (f_equal fst Hs)|exact (f_equal fst Hv)].
Defined.

Lemma solve_after_destroy_answers_as_engine_on_double :
  _nextflap_engine (self (Double.constructed Double.strict)) = Some 0
  /\ fst (_solve 41 None None None
            (snd (destroy (Double.constructed Double.strict))))
     = Raise Double.engine_destroyed.
Proof.
  split; [reflexivity|].
  destruct (solve_after_destroy_answers_as_engine (env := Double.env)
              (Double.constructed Double.strict) 0 41 None None None eq_refl)
    as (_ & _ & _ & Hs & _).
  exact Hs.
Defined.

Lemma destroy_without_engine_is_noop_on_double :
  _nextflap_engine (self (Double.unconstructed Double.lenient)) = None
  /\ destroy (Double.unconstructed Double.lenient)
     = (Return tt, Double.unconstructed Double.lenient).
Proof.
  split; [reflexivity|].
  exact (proj1 (destroy_without_engine_is_noop (env := Double.env)
                  (Double.unconstructed Double.lenient) eq_refl)).
Defined.

Lemma destroy_keeps_engine_on_double :
  _nextflap_engine (self (Double.constructed Double.lenient)) = Some 0
  /\ _nextflap_engine (self (snd (destroy (Double.constructed Double.lenient))))
     = Some 0
  /\ calls (outside (snd (destroy (snd (destroy (Double.constructed Double.lenient))))))
     = [EvImport; EvNew []; EvDestroy 0; EvDestroy 0].
Proof.
  split; [reflexivity|].
  destruct (destroy_keeps_engine (env := Double.env) (Double.constructed Double.lenient) 0
              41 None None None 42 eq_refl)
    as (Hh & _ & _ & _ & Hd & _).
  split; [exact Hh|exact Hd].
Defined.

Lemma constructor_translates_only_ImportError_on_double :
  (resolution_raises []
     (Double.broken (new_exn (OtherException "ValueError") "bad option"))
     (new_exn (OtherException "ValueError") "bad option")
   /\ fst (construct [] []
             (Double.start
                (Double.broken (new_exn (OtherException "ValueError") "bad option"))))
      = Raise (new_exn (OtherException "ValueError") "bad option")
   /\ _nextflap_engine
        (self (snd (construct [] []
                      (Double.start
                         (Double.broken
                            (new_exn (OtherException "ValueError") "bad option"))))))
      = None)
  /\ (resolution_raises [] (Double.broken Faulty.zip_import_error)
        Faulty.zip_import_error
      /\ is_ImportError Faulty.zip_import_error = true
      /\ fst (construct [] [] (Double.start (Double.broken Faulty.zip_import_error)))
         = Raise (with_cause (_on_import_error Faulty.zip_import_error)
                    Faulty.zip_import_error)
      /\ describes_missing_dependency Faulty.zip_import_error
           (with_cause (_on_import_error Faulty.zip_import_error)
              Faulty.zip_import_error)
      /\ _nextflap_engine
           (self (snd (construct [] []
                         (Double.start (Double.broken Faulty.zip_import_error)))))
         = None)
  /\ (resolution_raises [] Double.absent Double.not_installed
      /\ fst (construct [] [] (Double.start Double.absent))
         = Raise (with_cause (_on_import_error Double.not_installed)
                    Double.not_installed)
      /\ _nextflap_engine
           (self (snd (construct [] [] (Double.start Double.absent))))
         = None).
Proof.
  assert (Hv : resolution_raises (env := Double.env) []
                 (Double.broken (new_exn (OtherException "ValueError") "bad option"))
                 (new_exn (OtherException "ValueError") "bad option")).
  { right. eexists _, _. split; reflexivity. }
  assert (Hz : resolution_raises (env := Double.env) []
                 (Double.broken Faulty.zip_import_error) Faulty.zip_import_error).
  { right. eexists _, _. split; reflexivity. }
  assert (Hm : resolution_raises (env := Double.env) []
                 Double.absent Double.not_installed).
  { left. eexists. reflexivity. }
  split; [|split].
  - split; [exact Hv|].
    destruct (constructor_translates_only_ImportError (env := Double.env) [] []
                (Double.start
                   (Double.broken (new_exn (OtherException "ValueError") "bad option")))
                (new_exn (OtherException "ValueError") "bad option") Hv)
      as (_ & Hp & Hn).
    split; [exact (Hp eq_refl)|exact Hn].
  - split; [exact Hz|]. split; [reflexivity|].
    destruct (constructor_translates_only_ImportError (env := Double.env) [] []
                (Double.start (Double.broken Faulty.zip_import_error))
                Faulty.zip_import_error Hz)
      as (Ht & _ & Hn).
    destruct (Ht eq_refl) as (Hr & Hd).
    split; [exact Hr|]. split; [exact Hd|exact Hn].
  - split; [exact Hm|].
    destruct (constructor_translates_only_ImportError (env := Double.env) [] []
                (Double.start Double.absent) Double.not_installed Hm)
      as (Ht & _ & Hn).
    split; [exact (proj1 (Ht eq_refl))|exact Hn].
Defined.

(** *** The sixth testable property fails on the double *)

(** C6, as the specification states it, is false: the lenient engine of the
    double keeps answering after [destroy], and the adapter forwards to it,
    so [_solve] returns a result on a destroyed adapter. *)
Lemma solve_returns_after_destroy_on_double :
  _nextflap_engine (self (Double.constructed Double.lenient)) = Some 0
  /\ fst (destroy (Double.constructed Double.lenient)) = Return tt
  /\ fst (_solve 41 None None None
            (snd (destroy (Double.constructed Double.lenient))))
     = Return 42
  /\ ~ @solve_fails_after_destroy Double.env.
Proof.
  split; [reflexivity|]. split; [reflexivity|]. split; [reflexivity|].
  intros H.
  specialize (H (Double.constructed Double.lenient) 0 41 None None None eq_refl).
  discriminate H.
Qed.

End OnTheDouble.

(** ** Further properties: resolution, construction and sessions *)

Lemma length_append (a b : string) :
  String.length (a +:+ b) = String.length a + String.length b.
Proof.
  induction a as [|ch a IH]; [reflexivity|].
  change (S (String.length (a +:+ b)) = S (String.length a + String.length b)).
  by rewrite IH.
Qed.

Lemma append_inv_tail (a b s : string) : a +:+ s = b +:+ s -> a = b.
Proof.
  revert b. induction a as [|ch a IH]; intros [|ch' b] H.
  - done.
  - apply (f_equal String.length) in H.
    rewrite !length_append in H. simpl in H. lia.
  - apply (f_equal String.length) in H.
    rewrite !length_append in H. simpl in H. lia.
  - change (String ch (a +:+ s) = String ch' (b +:+ s)) in H.
    injection H as -> H. f_equal. by apply IH.
Qed.

Section Resolution.

Context {env : Environment}.

Implicit Types (st : Machine) (o : Outside) (e : Exn) (h : Handle).

Lemma supports_cases (k : ProblemKind) o :
  supports k o
  = (map_outcome (ProblemKind_le k) (fst (supported_kind o)),
     snd (supported_kind o)).
Proof.
  unfold supports, bind, ret.
  by destruct (supported_kind o) as [[sk|x] o'].
Qed.

Lemma supported_kind_cases o :
  supported_kind o
  = match import_NextFLAPImpl (world o) with
    | (Raise e, w1) =>
        (Raise (as_raised_by_adapter e),
         {| world := w1; calls := calls o ++ [EvImport] |})
    | (Return _, w1) =>
        (match fst (NextFLAPImpl_supported_kind w1) with
         | Return a => Return a
         | Raise e => Raise (as_raised_by_adapter e)
         end,
         {| world := snd (NextFLAPImpl_supported_kind w1);
            calls := (calls o ++ [EvImport]) ++ [EvSupportedKind] |})
    end.
Proof. apply query_cases. Qed.

(** X1.  When the import returns and the constructor of the engine returns
    [h] for the keyword arguments it was given, the constructor of the
    adapter returns, stores exactly [h], has run the three base-class
    initialisers in the order [Engine], [OneshotPlannerMixin],
    [PlanValidatorMixin], and has made two external calls: the import, then
    the constructor of the engine on the same keyword arguments. *)
Theorem construct_success (kwargs : Kwargs) (base0 : BaseFields) o
    (w1 w2 : World) h :
  import_NextFLAPImpl (world o) = (Return tt, w1) ->
  NextFLAPImpl_new kwargs w1 = (Return h, w2) ->
  construct kwargs base0 o
  = (Return tt,
     {| self :=
          {| _nextflap_engine := Some h;
             base_fields :=
               PlanValidatorMixin___init__
                 (OneshotPlannerMixin___init__ (Engine___init__ base0)) |};
        outside := {| world := w2;
                      calls := calls o ++ [EvImport; EvNew kwargs] |} |}).
Proof.
  intros Hi Hn. unfold construct. rewrite __init___cases. simpl.
  rewrite Hi, Hn. by rewrite <- app_assoc.
Qed.

(** X2.  When the import returns, each static query gives back what the
    static method of the class returns, and passes its argument on as it
    is: [supported_kind] the kind, [supports k] the comparison of [k] with
    that kind, [supports_plan] the boolean, [get_credits] the credits or
    [None].  Each query makes two external calls, the import and the
    method. *)
Theorem queries_forward_to_class o (w1 : World) :
  import_NextFLAPImpl (world o) = (Return tt, w1) ->
  (forall sk w2,
     NextFLAPImpl_supported_kind w1 = (Return sk, w2) ->
     supported_kind o
     = (Return sk,
        {| world := w2; calls := calls o ++ [EvImport; EvSupportedKind] |})
     /\ forall k,
          supports k o
          = (Return (ProblemKind_le k sk),
             {| world := w2; calls := calls o ++ [EvImport; EvSupportedKind] |}))
  /\ (forall k b w2,
        NextFLAPImpl_supports_plan k w1 = (Return b, w2) ->
        supports_plan k o
        = (Return b,
           {| world := w2; calls := calls o ++ [EvImport; EvSupportsPlan k] |}))
  /\ (forall kw c w2,
        NextFLAPImpl_get_credits kw w1 = (Return c, w2) ->
        get_credits kw o
        = (Return c,
           {| world := w2; calls := calls o ++ [EvImport; EvGetCredits kw] |})).
Proof.
  intros Hi. split; [|split].
  - intros sk w2 Hk.
    assert (Hs : supported_kind o
                 = (Return sk,
                    {| world := w2;
                       calls := calls o ++ [EvImport; EvSupportedKind] |})).
    { rewrite supported_kind_cases, Hi, Hk. simpl. by rewrite <- app_assoc. }
    split; [done|]. intros k. by rewrite supports_cases, Hs.
  - intros k b w2 Hk. unfold supports_plan.
    rewrite query_cases, Hi, Hk. simpl. by rewrite <- app_assoc.
  - intros kw c w2 Hk. unfold get_credits.
    rewrite query_cases, Hi, Hk. simpl. by rewrite <- app_assoc.
Qed.

(** X3.  When the import returns and the static method of the class raises
    [e], the query raises [e] itself unless [e] is an [ImportError]; an
    [ImportError] raised by the method, after a successful import, is
    reported as the installation error made from it, like a failed import.
    [supports] fails as [supported_kind] does, without comparing. *)
Theorem queries_class_exception o (w1 : World) e :
  import_NextFLAPImpl (world o) = (Return tt, w1) ->
  let x := if is_ImportError e then with_cause (_on_import_error e) e else e in
  (forall w2,
     NextFLAPImpl_supported_kind w1 = (Raise e, w2) ->
     supported_kind o
     = (Raise x,
        {| world := w2; calls := calls o ++ [EvImport; EvSupportedKind] |})
     /\ forall k,
          supports k o
          = (Raise x,
             {| world := w2; calls := calls o ++ [EvImport; EvSupportedKind] |}))
  /\ (forall k w2,
        NextFLAPImpl_supports_plan k w1 = (Raise e, w2) ->
        supports_plan k o
        = (Raise x,
           {| world := w2; calls := calls o ++ [EvImport; EvSupportsPlan k] |}))
  /\ (forall kw w2,
        NextFLAPImpl_get_credits kw w1 = (Raise e, w2) ->
        get_credits kw o
        = (Raise x,
           {| world := w2; calls := calls o ++ [EvImport; EvGetCredits kw] |})).
Proof.
  intros Hi x. subst x.
  change (if is_ImportError e then with_cause (_on_import_error e) e else e)
    with (as_raised_by_adapter e).
  split; [|split].
  - intros w2 Hk.
    assert (Hs : supported_kind o
                 = (Raise (as_raised_by_adapter e),
                    {| world := w2;
                       calls := calls o ++ [EvImport; EvSupportedKind] |})).
    { rewrite supported_kind_cases, Hi, Hk. simpl. by rewrite <- app_assoc. }
    split; [done|]. intros k. by rewrite supports_cases, Hs.
  - intros k w2 Hk. unfold supports_plan.
    rewrite query_cases, Hi, Hk. simpl. by rewrite <- app_assoc.
  - intros kw w2 Hk. unfold get_credits.
    rewrite query_cases, Hi, Hk. simpl. by rewrite <- app_assoc.
Qed.

(** X4.  When the import itself raises [e], the constructor and every
    static query stop there: the only external call made is the import, the
    constructor of the engine and the static methods of the class are not
    called, and the error is [e] unchanged unless [e] is an [ImportError].
    The constructor has run the base-class initialisers by then and leaves
    the attribute [_nextflap_engine] as it found it. *)
Theorem import_exception_stops_resolution o (w1 : World) e :
  import_NextFLAPImpl (world o) = (Raise e, w1) ->
  let x := if is_ImportError e then with_cause (_on_import_error e) e else e in
  let o1 := {| world := w1; calls := calls o ++ [EvImport] |} in
  (forall (kwargs : Kwargs) (s : NextFLAPPlanner),
     __init__ kwargs {| self := s; outside := o |}
     = (Raise x,
        {| self :=
             {| _nextflap_engine := _nextflap_engine s;
                base_fields :=
                  PlanValidatorMixin___init__
                    (OneshotPlannerMixin___init__
                       (Engine___init__ (base_fields s))) |};
           outside := o1 |}))
  /\ supported_kind o = (Raise x, o1)
  /\ (forall k, supports k o = (Raise x, o1))
  /\ (forall k, supports_plan k o = (Raise x, o1))
  /\ (forall kw, get_credits kw o = (Raise x, o1)).
Proof.
  intros Hi x o1. subst x o1.
  change (if is_ImportError e then with_cause (_on_import_error e) e else e)
    with (as_raised_by_adapter e).
  assert (Hs : supported_kind o
               = (Raise (as_raised_by_adapter e),
                  {| world := w1; calls := calls o ++ [EvImport] |})).
  { by rewrite supported_kind_cases, Hi. }
  split; [|split; [|split; [|split]]].
  - intros kwargs s. rewrite __init___cases. simpl. by rewrite Hi.
  - done.
  - intros k. by rewrite supports_cases, Hs.
  - intros k. unfold supports_plan. by rewrite query_cases, Hi.
  - intros kw. unfold get_credits. by rewrite query_cases, Hi.
Qed.

(** X5.  The constructor run on an object in any state, one that already
    holds an engine included: if it raises, the attribute [_nextflap_engine]
    is what it was before; if it returns, the attribute holds the engine
    the constructor of [NextFLAPImpl] has just returned.  Either way it
    makes the import and at most the constructor call of the engine, so it
    never calls [destroy] on an engine the object held. *)
Theorem init_on_any_object (kwargs : Kwargs) st :
  let r := __init__ kwargs st in
  (raised (fst r) = true ->
   _nextflap_engine (self (snd r)) = _nextflap_engine (self st))
  /\ (returned (fst r) = true ->
      exists w1 w2 h,
        import_NextFLAPImpl (world (outside st)) = (Return tt, w1)
        /\ NextFLAPImpl_new kwargs w1 = (Return h, w2)
        /\ _nextflap_engine (self (snd r)) = Some h)
  /\ (calls (outside (snd r)) = calls (outside st) ++ [EvImport]
      \/ calls (outside (snd r))
         = calls (outside st) ++ [EvImport; EvNew kwargs]).
Proof.
  intros r. subst r. rewrite __init___cases. simpl.
  destruct (import_NextFLAPImpl (world (outside st))) as [[[]|e] w1]; simpl.
  - destruct (NextFLAPImpl_new kwargs w1) as [[h|e] w2] eqn:Hn; simpl.
    + split; [done|]. split; [|right; by rewrite <- app_assoc].
      intros _. by exists w1, w2, h.
    + split; [done|]. split; [done|]. right. by rewrite <- app_assoc.
  - split; [done|]. split; [done|]. by left.
Qed.

(** X6.  The error built by [_on_import_error] depends on the text of the
    original error and on nothing else of it: two original errors give the
    same error exactly when their texts are equal, so the text of the
    original can be read back from the message, while its class and its own
    cause are not kept in the object built (the result is a plain
    [ImportError] with no cause; the cause is attached by [raise ... from]). *)
Theorem on_import_error_keeps_the_text e1 e2 :
  (_on_import_error e1 = _on_import_error e2 <-> exn_str e1 = exn_str e2)
  /\ exn_class (_on_import_error e1) = ImportError
  /\ exn_cause (_on_import_error e1) = None
  /\ is_ImportError (_on_import_error e1) = true.
Proof.
  split; [|done]. unfold _on_import_error, new_exn. split.
  - intros [= H]. cbv beta iota delta [String.append] in H.
    fold String.append in H. by apply append_inv_tail in H.
  - by intros ->.
Qed.

End Resolution.

Section SessionProperties.

Context {env : Environment}.

Implicit Types (st : Machine) (o : Outside) (h : Handle).

Lemma execution_is_no_init (c : MethodCall) st :
  is_execution c = true -> init_returned c st = false.
Proof. by destruct c. Qed.

Lemma after_execution_unready (c : MethodCall) st :
  _nextflap_engine (self st) = None -> is_execution c = true ->
  after c st = st.
Proof.
  intros H Hc. destruct c; try discriminate Hc; simpl.
  - done.
  - by rewrite _solve_absent.
  - by rewrite _validate_absent.
  - by rewrite destroy_absent.
Qed.

Lemma after_execution_ready (c : MethodCall) st h :
  _nextflap_engine (self st) = Some h -> is_execution c = true ->
  self (after c st) = self st
  /\ calls (outside (after c st)) = calls (outside st) ++ engine_events h c.
Proof.
  intros H Hc. destruct c; try discriminate Hc; simpl.
  - by rewrite app_nil_r.
  - by rewrite (_solve_present _ h).
  - by rewrite (_validate_present _ h).
  - by rewrite (destroy_present _ h).
Qed.

Lemma history_execution_ready (cs : list MethodCall) st h (b : bool) :
  _nextflap_engine (self st) = Some h ->
  forallb is_execution cs = true ->
  self (fst (history cs st b)) = self st
  /\ calls (outside (fst (history cs st b)))
     = calls (outside st) ++ flat_map (engine_events h) cs
  /\ snd (history cs st b) = b.
Proof.
  revert st b. induction cs as [|c cs IH]; intros st b H Hcs; simpl.
  - by rewrite app_nil_r.
  - apply andb_prop in Hcs as [Hc Hcs].
    destruct (after_execution_ready c st h H Hc) as [Hself Hcalls].
    rewrite (execution_is_no_init c st Hc), orb_false_r.
    destruct (IH (after c st) b) as (IH1 & IH2 & IH3); [by rewrite Hself|done|].
    rewrite IH1, IH2, IH3, Hself, Hcalls. by rewrite <- app_assoc.
Qed.

(** X7.  On an object without the attribute [_nextflap_engine], a whole
    sequence of [name], [_solve], [_validate] and [destroy] calls, in any
    order and of any length, leaves everything as it was: the object, the
    world, and the log of external calls.  Such an adapter never reaches the
    external package through these methods. *)
Theorem unready_session_changes_nothing (cs : list MethodCall) st (b : bool) :
  _nextflap_engine (self st) = None ->
  forallb is_execution cs = true ->
  history cs st b = (st, b).
Proof.
  revert b. induction cs as [|c cs IH]; intros b H Hcs; simpl; [done|].
  apply andb_prop in Hcs as [Hc Hcs].
  rewrite (after_execution_unready c st H Hc).
  rewrite (execution_is_no_init c st Hc), orb_false_r.
  by apply IH.
Qed.

(** X8.  On an object that holds the engine [h], a sequence of [name],
    [_solve], [_validate] and [destroy] calls leaves the object as it was
    and adds to the log, in order, one call to [h] for each [_solve],
    [_validate] and [destroy], with the arguments of that call, and nothing
    for [name].  This holds whatever the engine returned or raised on the
    way: an exception from the engine does not change how later calls are
    forwarded. *)
Theorem ready_session_trace (cs : list MethodCall) st h (b : bool) :
  _nextflap_engine (self st) = Some h ->
  forallb is_execution cs = true ->
  self (fst (history cs st b)) = self st
  /\ calls (outside (fst (history cs st b)))
     = calls (outside st) ++ flat_map (engine_events h) cs.
Proof.
  intros H Hcs.
  destruct (history_execution_ready cs st h b H Hcs) as (H1 & H2 & _).
  by split.
Qed.

(** X9.  A whole session: when the import returns and the constructor of
    the engine returns [h], constructing the adapter on a new object and
    then calling [name], [_solve], [_validate] and [destroy] in any order
    sends every one of those calls to that same [h]; the external calls of
    the session are the import, the constructor call with the keyword
    arguments given, and then one call to [h] per method call, in order. *)
Theorem constructed_session_trace (kwargs : Kwargs) (base0 : BaseFields) o
    (w1 w2 : World) h (cs : list MethodCall) :
  import_NextFLAPImpl (world o) = (Return tt, w1) ->
  NextFLAPImpl_new kwargs w1 = (Return h, w2) ->
  forallb is_execution cs = true ->
  let reached :=
    history (CallInit kwargs :: cs)
      {| self := new_planner base0; outside := o |} false in
  snd reached = true
  /\ self (fst reached)
     = {| _nextflap_engine := Some h;
          base_fields := base_initialised base0 |}
  /\ calls (outside (fst reached))
     = calls o ++ [EvImport; EvNew kwargs] ++ flat_map (engine_events h) cs.
Proof.
  intros Hi Hn Hcs reached. subst reached. simpl.
  rewrite __init___cases. simpl. rewrite Hi, Hn. simpl.
  match goal with
  | |- context [history cs ?s true] =>
      destruct (history_execution_ready cs s h true eq_refl Hcs)
        as (H1 & H2 & H3)
  end.
  rewrite H1, H2, H3. simpl. split; [done|]. split; [done|].
  by rewrite <- !app_assoc.
Qed.

End SessionProperties.

(** ** The further properties at concrete inputs *)

Section OnTheDoubles.

Lemma construct_success_on_double :
  import_NextFLAPImpl (Environment := Double.env) Double.lenient
  = (Return tt, Double.lenient)
  /\ NextFLAPImpl_new (Environment := Double.env) [("depth", 3); ("seed", 7)] Double.lenient
     = (Return 2, Double.lenient)
  /\ construct (env := Double.env) [("depth", 3); ("seed", 7)] []
       (Double.start Double.lenient)
     = (Return tt,
        mkMachine (env := Double.env)
          (mkPlanner (env := Double.env) (Some 2)
             [("skip_checks", false); ("optimality_metric_required", false);
              ("error_on_failed_checks", true)])
          (mkOutside (env := Double.env) Double.lenient
             [EvImport; EvNew (env := Double.env) [("depth", 3); ("seed", 7)]])).
Proof.
  split; [reflexivity|]. split; [reflexivity|].
  exact (construct_success (env := Double.env) [("depth", 3); ("seed", 7)] []
           (Double.start Double.lenient) Double.lenient Double.lenient 2
           eq_refl eq_refl).
Defined.

Lemma queries_forward_to_class_on_faulty :
  import_NextFLAPImpl (Environment := Faulty.env) Faulty.sound = (Return tt, Faulty.sound)
  /\ supports_plan (env := Faulty.env) "TIME_TRIGGERED_PLAN" (Faulty.start Faulty.sound)
     = (Return true,
        mkOutside (env := Faulty.env) Faulty.sound
          [EvImport; EvSupportsPlan (env := Faulty.env) "TIME_TRIGGERED_PLAN"])
  /\ get_credits (env := Faulty.env) ["verbose"] (Faulty.start Faulty.sound)
     = (Return None,
        mkOutside (env := Faulty.env) Faulty.sound
          [EvImport; EvGetCredits (env := Faulty.env) ["verbose"]]).
Proof.
  split; [reflexivity|].
  destruct (queries_forward_to_class (env := Faulty.env)
              (Faulty.start Faulty.sound) Faulty.sound eq_refl)
    as (_ & Hp & Hc).
  split.
  - exact (Hp "TIME_TRIGGERED_PLAN" true Faulty.sound eq_refl).
  - exact (Hc ["verbose"] None Faulty.sound eq_refl).
Defined.

Lemma queries_class_exception_on_faulty :
  (import_NextFLAPImpl (Environment := Faulty.env) (Faulty.class_fails Faulty.missing_binding)
   = (Return tt, Faulty.class_fails Faulty.missing_binding)
   /\ fst (supported_kind (env := Faulty.env)
             (Faulty.start (Faulty.class_fails Faulty.missing_binding)))
      = Raise (with_cause (_on_import_error (env := Faulty.env) Faulty.missing_binding)
                 Faulty.missing_binding)
   /\ fst (supports (env := Faulty.env) empty_kind
             (Faulty.start (Faulty.class_fails Faulty.missing_binding)))
      = Raise (with_cause (_on_import_error (env := Faulty.env) Faulty.missing_binding)
                 Faulty.missing_binding))
  /\ fst (supports_plan (env := Faulty.env) "SEQUENTIAL_PLAN"
            (Faulty.start (Faulty.class_fails Faulty.zip_import_error)))
     = Raise (with_cause (_on_import_error (env := Faulty.env) Faulty.zip_import_error)
                Faulty.zip_import_error)
  /\ fst (get_credits (env := Faulty.env) []
            (Faulty.start (Faulty.class_fails Faulty.value_error)))
     = Raise Faulty.value_error.
Proof.
  split; [|split].
  - split; [reflexivity|].
    destruct (queries_class_exception (env := Faulty.env)
                (Faulty.start (Faulty.class_fails Faulty.missing_binding))
                (Faulty.class_fails Faulty.missing_binding)
                Faulty.missing_binding eq_refl)
      as (Hk & _).
    destruct (Hk (Faulty.class_fails Faulty.missing_binding) eq_refl) as (Hs & Hsup).
    split; [exact (f_equal fst Hs)|exact (f_equal fst (Hsup empty_kind))].
  - destruct (queries_class_exception (env := Faulty.env)
                (Faulty.start (Faulty.class_fails Faulty.zip_import_error))
                (Faulty.class_fails Faulty.zip_import_error)
                Faulty.zip_import_error eq_refl)
      as (_ & Hp & _).
    exact (f_equal fst
             (Hp "SEQUENTIAL_PLAN" (Faulty.class_fails Faulty.zip_import_error)
                eq_refl)).
  - destruct (queries_class_exception (env := Faulty.env)
                (Faulty.start (Faulty.class_fails Faulty.value_error))
                (Faulty.class_fails Faulty.value_error)
                Faulty.value_error eq_refl)
      as (_ & _ & Hc).
    exact (f_equal fst (Hc [] (Faulty.class_fails Faulty.value_error) eq_refl)).
Defined.

Lemma import_exception_stops_resolution_on_faulty :
  (import_NextFLAPImpl (Environment := Faulty.env) (Faulty.unimportable Faulty.syntax_error)
   = (Raise Faulty.syntax_error, Faulty.unimportable Faulty.syntax_error)
   /\ supported_kind (env := Faulty.env)
        (Faulty.start (Faulty.unimportable Faulty.syntax_error))
      = (Raise Faulty.syntax_error,
         mkOutside (env := Faulty.env) (Faulty.unimportable Faulty.syntax_error)
           [EvImport])
   /\ get_credits (env := Faulty.env) []
        (Faulty.start (Faulty.unimportable Faulty.syntax_error))
      = (Raise Faulty.syntax_error,
         mkOutside (env := Faulty.env) (Faulty.unimportable Faulty.syntax_error)
           [EvImport]))
  /\ (import_NextFLAPImpl (Environment := Faulty.env)
        (Faulty.unimportable Faulty.zip_import_error)
      = (Raise Faulty.zip_import_error, Faulty.unimportable Faulty.zip_import_error)
      /\ supported_kind (env := Faulty.env)
           (Faulty.start (Faulty.unimportable Faulty.zip_import_error))
         = (Raise (with_cause
                     (_on_import_error (env := Faulty.env) Faulty.zip_import_error)
                     Faulty.zip_import_error),
            mkOutside (env := Faulty.env)
              (Faulty.unimportable Faulty.zip_import_error) [EvImport])
      /\ fst (__init__ (env := Faulty.env) ["fast"]
                (mkMachine (env := Faulty.env) (new_planner (env := Faulty.env) 0)
                   (Faulty.start (Faulty.unimportable Faulty.zip_import_error))))
         = Raise (with_cause
                    (_on_import_error (env := Faulty.env) Faulty.zip_import_error)
                    Faulty.zip_import_error)).
Proof.
  split.
  - split; [reflexivity|].
    destruct (import_exception_stops_resolution (env := Faulty.env)
                (Faulty.start (Faulty.unimportable Faulty.syntax_error))
                (Faulty.unimportable Faulty.syntax_error)
                Faulty.syntax_error eq_refl)
      as (_ & Hk & _ & _ & Hc).
    split; [exact Hk|exact (Hc [])].
  - split; [reflexivity|].
    destruct (import_exception_stops_resolution (env := Faulty.env)
                (Faulty.start (Faulty.unimportable Faulty.zip_import_error))
                (Faulty.unimportable Faulty.zip_import_error)
                Faulty.zip_import_error eq_refl)
      as (Hi & Hk & _).
    split; [exact Hk|].
    exact (f_equal fst (Hi ["fast"] (new_planner (env := Faulty.env) 0))).
Defined.

Lemma unready_session_changes_nothing_on_double :
  _nextflap_engine (self (Double.unconstructed Double.lenient)) = None
  /\ history (env := Double.env)
       [CallDestroy; CallSolve (env := Double.env) 41 None None None;
        CallName; CallValidate (env := Double.env) 41 42; CallDestroy]
       (Double.unconstructed Double.lenient) false
     = (Double.unconstructed Double.lenient, false).
Proof.
  split; [reflexivity|].
  exact (unready_session_changes_nothing (env := Double.env)
           [CallDestroy; CallSolve (env := Double.env) 41 None None None;
            CallName; CallValidate (env := Double.env) 41 42; CallDestroy]
           (Double.unconstructed Double.lenient) false eq_refl eq_refl).
Defined.

Lemma ready_session_trace_on_double :
  _nextflap_engine (self (Double.constructed Double.strict)) = Some 0
  /\ calls (outside (fst (history (env := Double.env)
                            [CallSolve (env := Double.env) 1 None None None;
                             CallDestroy;
                             CallSolve (env := Double.env) 2 None (Some 9) None;
                             CallName;
                             CallValidate (env := Double.env) 2 3]
                            (Double.constructed Double.strict) true)))
     = calls (outside (Double.constructed Double.strict))
       ++ [EvSolve (env := Double.env) 0 1 None None None;
           EvDestroy (env := Double.env) 0;
           EvSolve (env := Double.env) 0 2 None (Some 9) None;
           EvValidate (env := Double.env) 0 2 3].
Proof.
  split; [reflexivity|].
  exact (proj2 (ready_session_trace (env := Double.env)
                  [CallSolve (env := Double.env) 1 None None None;
                   CallDestroy;
                   CallSolve (env := Double.env) 2 None (Some 9) None;
                   CallName;
                   CallValidate (env := Double.env) 2 3]
                  (Double.constructed Double.strict) 0 true eq_refl eq_refl)).
Defined.

Lemma constructed_session_trace_on_faulty :
  import_NextFLAPImpl (Environment := Faulty.env) Faulty.sound = (Return tt, Faulty.sound)
  /\ fst (NextFLAPImpl_new (Environment := Faulty.env) ["fast"] Faulty.sound) = Return 5
  /\ calls (outside (fst (history (env := Faulty.env)
                            [CallInit (env := Faulty.env) ["fast"];
                             CallValidate (env := Faulty.env) 4 0;
                             CallSolve (env := Faulty.env) 4 None None None;
                             CallDestroy]
                            (mkMachine (env := Faulty.env)
                               (new_planner (env := Faulty.env) 0)
                               (Faulty.start Faulty.sound))
                            false)))
     = [EvImport; EvNew (env := Faulty.env) ["fast"];
        EvValidate (env := Faulty.env) 5 4 0;
        EvSolve (env := Faulty.env) 5 4 None None None;
        EvDestroy (env := Faulty.env) 5].
Proof.
  split; [reflexivity|]. split; [reflexivity|].
  destruct (constructed_session_trace (env := Faulty.env) ["fast"] 0
              (Faulty.start Faulty.sound) Faulty.sound
              (snd (NextFLAPImpl_new (Environment := Faulty.env) ["fast"] Faulty.sound))
              5
              [CallValidate (env := Faulty.env) 4 0;
               CallSolve (env := Faulty.env) 4 None None None;
               CallDestroy]
              eq_refl eq_refl eq_refl)
    as (_ & _ & Hc).
  exact Hc.
Defined.

Example subclass_is_caught :
  is_ImportError Faulty.zip_import_error = true
  /\ is_ImportError Double.not_installed = true
  /\ is_ImportError Faulty.syntax_error = false
  /\ fst (try_except_ImportError (S := unit) (A := nat)
            (raise Faulty.zip_import_error) (fun _ => ret 0) tt)
     = Return 0.
Proof. repeat split; reflexivity. Qed.

Example reinit_on_faulty :
  let st1 := snd (construct (env := Faulty.env) [] 0 (Faulty.start Faulty.sound)) in
  let st2 := snd (__init__ (env := Faulty.env) ["again"] st1) in
  _nextflap_engine (self st1) = Some 5
  /\ _nextflap_engine (self st2) = Some 6
  /\ calls (outside st2)
     = [EvImport; EvNew (env := Faulty.env) [];
        EvImport; EvNew (env := Faulty.env) ["again"]].
Proof. repeat split; reflexivity. Qed.

End OnTheDoubles.
